(** * HomeInspector: the Roboflow mold-detection service

    A shallow embedding of [RoboflowService] (severity classification,
    mapping of model predictions to detections, the demo-mode generator of
    mock detections, description templates and the service life cycle) and
    of the submit handlers of the [RoboflowSetup] form, followed by the
    properties established about them.

    Conventions of the embedding:
    - a JavaScript [number] is an exact rational ([Q]) and arithmetic is
      exact, where the source rounds every result to a double: a value
      that falls within a rounding step of a threshold, of an integer (for
      [Math.floor]) or of a half (for [Math.round]) may be classified
      differently by the source.  [NaN] and the infinities do not exist in
      [Q]: a numeric field that is absent (or [NaN]) is [None], and results
      about quotients by the frame size assume a frame of positive width
      and height;
    - the array answered by the model holds prediction objects whose
      properties are absent or of the documented type; an array with other
      elements (null, a class that is not a string), for which the callback
      of [detectMold] may throw, is outside the embedding;
    - [Math.random()] and [Date.now()] read from two tapes held in a
      [World] that is threaded through the effectful functions;
    - a promise is its outcome: [Resolved v] or [Rejected message];
    - [console.log] and [console.error] have no observable result and are
      left out. *)

From Stdlib Require Import QArith Qround Lqa ZArith Lia.
From Stdlib Require Import Bool List String Ascii.
From Stdlib Require Import DecimalString DecimalPos DecimalZ.
Import ListNotations.

Open Scope Q_scope.

(* ================================================================== *)
(** ** The fragment of JavaScript the service relies on *)

Module Js.

Definition Number := Q.

(** [a > b] on numbers. *)
Definition gt (a b : Number) : bool := negb (Qle_bool a b).

(** [v || d] for a numeric property [v] that may be absent: the default
    is taken when the property is missing or falsy (zero). *)
Definition or_else (v : option Number) (d : Number) : Number :=
  match v with
  | Some n => if Qeq_bool n 0 then d else n
  | None => d
  end.

(** [s || d] for a string property: missing or empty gives the default. *)
Definition or_else_string (v : option string) (d : string) : string :=
  match v with
  | Some EmptyString => d
  | Some s => s
  | None => d
  end.

Definition Math_max (a b : Number) : Number := if Qle_bool a b then b else a.
Definition Math_min (a b : Number) : Number := if Qle_bool a b then a else b.
Definition Math_floor (a : Number) : Z := Qfloor a.

(** [Math.sqrt]: the square root cut after 64 binary digits (the source
    rounds it to a double; the results below use only that it is monotone
    and its value on the sample inputs). *)
Definition Math_sqrt (a : Number) : Number :=
  Z.sqrt (Qfloor (a * inject_Z (4 ^ 64))) # (2 ^ 64).

(** [Math.round]: nearest integer, halves towards plus infinity. *)
Definition Math_round (a : Number) : Z := Qfloor (a + (1 # 2)).

(** An integer inside a template literal: its decimal digits. *)
Definition Number_toString (n : Z) : string :=
  NilZero.string_of_int (Z.to_int n).

(** The code units 'A' to 'Z'. *)
Definition is_upper (c : ascii) : bool :=
  let n := nat_of_ascii c in ((65 <=? n) && (n <=? 90))%nat.

Definition lower_ascii (c : ascii) : ascii :=
  if is_upper c then ascii_of_nat (nat_of_ascii c + 32) else c.

Fixpoint has_upper (s : string) : bool :=
  match s with
  | EmptyString => false
  | String c r => is_upper c || has_upper r
  end.

(** [String.prototype.toLowerCase] on the ASCII letters; other code
    units are kept (none of them lowers to a letter of the keys below). *)
Fixpoint toLowerCase (s : string) : string :=
  match s with
  | EmptyString => EmptyString
  | String c r => String (lower_ascii c) (toLowerCase r)
  end.

(** [s.startsWith(p)] *)
Fixpoint startsWith (s p : string) {struct p} : bool :=
  match p with
  | EmptyString => true
  | String a p' =>
      match s with
      | EmptyString => false
      | String b s' => Ascii.eqb a b && startsWith s' p'
      end
  end.

(** The values a property read can produce here. *)
Inductive Value : Type :=
| VUndefined
| VString (s : string)
| VBuiltin (name : string).   (* a function or object of the runtime *)

Definition truthy (v : Value) : bool :=
  match v with
  | VUndefined => false
  | VString EmptyString => false
  | VString _ => true
  | VBuiltin _ => true
  end.

(** [a || b] on values. *)
Definition or_value (a b : Value) : Value := if truthy a then a else b.

(** What every object literal inherits from [Object.prototype]. *)
Definition Object_prototype : list (string * Value) :=
  [ ("constructor", VBuiltin "Object");
    ("__defineGetter__", VBuiltin "__defineGetter__");
    ("__defineSetter__", VBuiltin "__defineSetter__");
    ("hasOwnProperty", VBuiltin "hasOwnProperty");
    ("__lookupGetter__", VBuiltin "__lookupGetter__");
    ("__lookupSetter__", VBuiltin "__lookupSetter__");
    ("isPrototypeOf", VBuiltin "isPrototypeOf");
    ("propertyIsEnumerable", VBuiltin "propertyIsEnumerable");
    ("toString", VBuiltin "toString");
    ("valueOf", VBuiltin "valueOf");
    ("__proto__", VBuiltin "Object.prototype");
    ("toLocaleString", VBuiltin "toLocaleString") ]%string.

Fixpoint assoc (props : list (string * Value)) (key : string) : option Value :=
  match props with
  | [] => None
  | (k, v) :: rest => if String.eqb k key then Some v else assoc rest key
  end.

(** [obj[key]] for an object literal with the given own properties: own
    properties first, then the prototype, else [undefined]. *)
Definition get (own : list (string * Value)) (key : string) : Value :=
  match assoc own key with
  | Some v => v
  | None =>
      match assoc Object_prototype key with
      | Some v => v
      | None => VUndefined
      end
  end.

(** What a thrown value is: an [Error] with its message, or anything else. *)
Inductive Thrown : Type :=
| ThrownError (message : string)
| ThrownOther.

(** [error instanceof Error ? error.message : 'Unknown error'] *)
Definition message_of (e : Thrown) : string :=
  match e with
  | ThrownError m => m
  | ThrownOther => "Unknown error"
  end.

(** The outcome of a promise. *)
Inductive Promise (A : Type) : Type :=
| Resolved (v : A)
| Rejected (message : string).
Arguments Resolved {A} v.
Arguments Rejected {A} message.

(** The ambient sources of non-determinism. *)
Record World : Type := mkWorld {
  random_tape : nat -> Number;   (* successive results of Math.random() *)
  random_pos : nat;
  clock_tape : nat -> Z;         (* successive results of Date.now() *)
  clock_pos : nat
}.

Definition M (A : Type) : Type := World -> A * World.

Definition ret {A} (a : A) : M A := fun w => (a, w).

Definition bind {A B} (m : M A) (k : A -> M B) : M B :=
  fun w => let (a, w') := m w in k a w'.

Definition Math_random : M Number :=
  fun w => (random_tape w (random_pos w),
            mkWorld (random_tape w) (S (random_pos w)) (clock_tape w) (clock_pos w)).

Definition Date_now : M Z :=
  fun w => (clock_tape w (clock_pos w),
            mkWorld (random_tape w) (random_pos w) (clock_tape w) (S (clock_pos w))).

End Js.

Import Js.

Notation "x <- m ;; k" := (bind m (fun x => k))
  (at level 61, m at next level, right associativity).

(* ================================================================== *)
(** ** Data model *)

Inductive Severity : Type := Low | Medium | High | Critical.

(** The order [low < medium < high < critical]. *)
Definition severity_rank (s : Severity) : nat :=
  match s with Low => 0 | Medium => 1 | High => 2 | Critical => 3 end.

Definition severity_le (a b : Severity) : Prop :=
  (severity_rank a <= severity_rank b)%nat.

Definition severity_name (s : Severity) : string :=
  match s with
  | Low => "low" | Medium => "medium" | High => "high" | Critical => "critical"
  end.

Record Location : Type := mkLocation {
  loc_x : Number;
  loc_y : Number;
  loc_width : Number;
  loc_height : Number
}.

(** One element of the array answered by the model: the six properties
    of the response, each of which may be absent. *)
Record Prediction : Type := mkPrediction {
  p_class : option string;
  p_confidence : option Number;
  p_x : option Number;
  p_y : option Number;
  p_width : option Number;
  p_height : option Number
}.

(** [rawPrediction]: the model's prediction itself, or the literal
    [{ demo: true, confidence, area }] of demo mode. *)
Inductive RawPrediction : Type :=
| RawModel (p : Prediction)
| RawDemo (confidence area : Number).

Record RoboflowDetection : Type := mkDetection {
  id : string;
  severity : Severity;
  confidence : Number;
  location : Location;
  description : Value;
  recommendations : list string;
  class : string;
  rawPrediction : RawPrediction
}.

(** The part of [HTMLImageElement | HTMLCanvasElement] that is read. *)
Record ImageElement : Type := mkImage {
  img_width : Z;
  img_height : Z
}.

(** What [model.detect(image)] evaluates to. *)
Inductive Predictions : Type :=
| PFalsy                              (* null, undefined, ... *)
| PNotArray                           (* truthy, not an array *)
| PArray (ps : list Prediction).

Inductive DetectOutcome : Type :=
| DetectReturns (v : Predictions)
| DetectThrows (e : Thrown).

Record Model : Type := mkModel {
  model_name : string;
  detect : ImageElement -> DetectOutcome
}.

Record Roboflow : Type := mkRoboflow { publishable_key : string }.

(** The fields of a [RoboflowService] instance. *)
Record Service : Type := mkService {
  rf : option Roboflow;
  model : option Model;
  isInitialized : bool;
  apiKey : option string
}.

(** What importing roboflow-js, constructing the client and loading the
    model lead to. *)
Inductive LoadOutcome : Type :=
| Loaded (detect_fn : ImageElement -> DetectOutcome)
| LoadThrows (e : Thrown).

(* ================================================================== *)
(** ** Pure helpers of the service *)

(** [determineSeverity]: four rules, the first that applies wins. *)
Definition determineSeverity (confidence area : Number) : Severity :=
  if gt confidence 0.8 && gt area 0.1 then Critical
  else if gt confidence 0.7 || gt area 0.05 then High
  else if gt confidence 0.6 then Medium
  else Low.

(** The classifier as the specification words it: rule [k] applies when
    its condition holds and no earlier rule applied. *)
Definition rule_critical (confidence area : Number) : Prop :=
  0.8 < confidence /\ 0.1 < area.

Definition rule_high (confidence area : Number) : Prop :=
  0.7 < confidence \/ 0.05 < area.

Definition rule_medium (confidence : Number) : Prop :=
  0.6 < confidence.

Definition severity_spec (confidence area : Number) (s : Severity) : Prop :=
  match s with
  | Critical => rule_critical confidence area
  | High => ~ rule_critical confidence area /\ rule_high confidence area
  | Medium => ~ rule_critical confidence area /\ ~ rule_high confidence area
              /\ rule_medium confidence
  | Low => ~ rule_critical confidence area /\ ~ rule_high confidence area
           /\ ~ rule_medium confidence
  end.

Definition percent_text (confidencePct : Z) : string :=
  Number_toString confidencePct ++ "% confidence".

(** The template every unknown class falls back to. *)
Definition generic_description (confidencePct : Z) : string :=
  "Mold-like substance detected with " ++ percent_text confidencePct.

(** The object literal [descriptions] of [generateDescription]. *)
Definition descriptions (confidencePct : Z) : list (string * Value) :=
  [ ("mold", VString ("Mold growth detected with " ++ percent_text confidencePct));
    ("mouldy", VString ("Moldy surface identified with " ++ percent_text confidencePct));
    ("fungal", VString ("Fungal growth observed with " ++ percent_text confidencePct)) ]%string.

Definition generateDescription (className : string) (confidence : Number) : Value :=
  let confidencePct := Math_round (confidence * 100) in
  or_value (get (descriptions confidencePct) (toLowerCase className))
           (VString (generic_description confidencePct)).

Definition base_recommendations : list string :=
  [ "Identify and eliminate moisture source";
    "Improve ventilation in affected area";
    "Monitor for spread to adjacent areas" ]%string.

(** [getMoldRecommendations]; its argument is always a result of
    [determineSeverity], that is one of the four keys of [specific]. *)
Definition getMoldRecommendations (severity : Severity) : list string :=
  let specific :=
    match severity with
    | Critical =>
        [ "IMMEDIATE professional mold remediation required";
          "Evacuate area until professional assessment";
          "Contact certified mold remediation specialist";
          "Consider temporary relocation if extensive" ]
    | High =>
        [ "Professional mold remediation recommended";
          "Wear protective equipment when in area";
          "Schedule professional air quality testing";
          "Document extent for insurance purposes" ]
    | Medium =>
        [ "Professional assessment recommended";
          "Clean with appropriate mold removal products";
          "Increase air circulation and dehumidification";
          "Monitor closely for expansion" ]
    | Low =>
        [ "Clean affected area with mold removal solution";
          "Ensure proper ventilation";
          "Regular monitoring recommended";
          "Address any moisture issues promptly" ]
    end%string in
  base_recommendations ++ specific.

(** [this.apiKey === 'demo'] *)
Definition is_demo (key : option string) : bool :=
  match key with
  | Some k => String.eqb k "demo"
  | None => false
  end.

(** [new RoboflowService(apiKey)]: [this.apiKey = apiKey || null]. *)
Definition new_service (key : option string) : Service :=
  let stored :=
    match key with
    | Some EmptyString => None
    | other => other
    end in
  mkService None None false stored.

Definition model_path : string :=
  "research-placement/mouldy-wall-classification/2".

(** [initialize(apiKey)]: the new fields and the promise's outcome. *)
Definition initialize (key : string) (load : LoadOutcome) (s : Service)
  : Service * Promise bool :=
  let s1 := mkService (rf s) (model s) (isInitialized s) (Some key) in
  if String.eqb key "demo" then
    (mkService (rf s1) (model s1) true (apiKey s1), Resolved true)
  else
    match load with
    | Loaded detect_fn =>
        (mkService (Some (mkRoboflow key)) (Some (mkModel model_path detect_fn))
                   true (apiKey s1),
         Resolved true)
    | LoadThrows e =>
        (mkService None None false (apiKey s1),
         Rejected ("Roboflow initialization failed: " ++ message_of e))
    end.

Definition has_model (s : Service) : bool :=
  match model s with Some _ => true | None => false end.

Definition isAvailable (s : Service) : bool :=
  isInitialized s && (is_demo (apiKey s) || has_model s).

(** The callback of [predictions.map] in [detectMold]. *)
Definition detectionOfPrediction (imageElement : ImageElement)
    (prediction : Prediction) (index : Z) : M RoboflowDetection :=
  let confidence := or_else (p_confidence prediction) 0 in
  let width := or_else (p_width prediction) 50 in
  let height := or_else (p_height prediction) 50 in
  let x := or_else (p_x prediction) 0 in
  let y := or_else (p_y prediction) 0 in
  let image_w := inject_Z (img_width imageElement) in
  let image_h := inject_Z (img_height imageElement) in
  let area := (width * height) / (image_w * image_h) in
  now <- Date_now ;;
  ret {| id := "mold_" ++ Number_toString now ++ "_" ++ Number_toString index;
         severity := determineSeverity confidence area;
         confidence := confidence;
         location :=
           {| loc_x := Math_max 0 (Math_min 1 ((x - width / 2) / image_w));
              loc_y := Math_max 0 (Math_min 1 ((y - height / 2) / image_h));
              loc_width := Math_min 1 (width / image_w);
              loc_height := Math_min 1 (height / image_h) |};
         description :=
           generateDescription (or_else_string (p_class prediction) "mold") confidence;
         recommendations := getMoldRecommendations (determineSeverity confidence area);
         class := or_else_string (p_class prediction) "mold";
         rawPrediction := RawModel prediction |}.

(** [array.map(callback)] for a callback with effects: elements in order,
    each with its index. *)
Fixpoint map_indexed {A B} (callback : A -> Z -> M B) (l : list A) (index : Z)
  : M (list B) :=
  match l with
  | [] => ret []
  | a :: rest =>
      b <- callback a index ;;
      bs <- map_indexed callback rest (index + 1)%Z ;;
      ret (b :: bs)
  end.

(** One turn of the loop of [generateMockDetections]. *)
Definition mockDetection (i : Z) : M RoboflowDetection :=
  r_confidence <- Math_random ;;
  let confidence := 0.6 + r_confidence * 0.3 in
  r_area <- Math_random ;;
  let area := 0.01 + r_area * 0.05 in
  now <- Date_now ;;
  r_x <- Math_random ;;
  r_y <- Math_random ;;
  r_width <- Math_random ;;
  r_height <- Math_random ;;
  ret {| id := "demo_mold_" ++ Number_toString now ++ "_" ++ Number_toString i;
         severity := determineSeverity confidence area;
         confidence := confidence;
         location :=
           {| loc_x := r_x * 0.7 + 0.1;
              loc_y := r_y * 0.7 + 0.1;
              loc_width := Math_sqrt area + r_width * 0.1;
              loc_height := Math_sqrt area + r_height * 0.1 |};
         description :=
           VString ("Demo: Mold growth detected with "
                    ++ Number_toString (Math_round (confidence * 100))
                    ++ "% confidence");
         recommendations := getMoldRecommendations (determineSeverity confidence area);
         class := "mold";
         rawPrediction := RawDemo confidence area |}.

(** [for (let i = 0; i < numDetections; i++) detections.push(...)]: the
    body runs [remaining] more times, starting at index [i]. *)
Fixpoint mock_loop (remaining : nat) (i : Z) : M (list RoboflowDetection) :=
  match remaining with
  | O => ret []
  | S k =>
      d <- mockDetection i ;;
      ds <- mock_loop k (i + 1)%Z ;;
      ret (d :: ds)
  end.

Definition generateMockDetections (imageElement : ImageElement)
  : M (list RoboflowDetection) :=
  r <- Math_random ;;
  let numDetections := Math_floor (r * 3) in
  mock_loop (Z.to_nat numDetections) 0%Z.

Definition detectMold (s : Service) (imageElement : ImageElement)
  : M (Promise (list RoboflowDetection)) :=
  if is_demo (apiKey s) then
    ds <- generateMockDetections imageElement ;;
    ret (Resolved ds)
  else if negb (isAvailable s) || negb (has_model s) then
    ret (Rejected "Roboflow model not initialized")
  else
    match model s with
    | None => ret (Rejected "Roboflow model not initialized")
    | Some m =>
        match detect m imageElement with
        | DetectThrows e =>
            ret (Rejected ("Mold detection failed: " ++ message_of e))
        | DetectReturns PFalsy => ret (Resolved [])
        | DetectReturns PNotArray => ret (Resolved [])
        | DetectReturns (PArray predictions) =>
            if (List.length predictions =? 0)%nat then ret (Resolved [])
            else
              ds <- map_indexed (detectionOfPrediction imageElement) predictions 0%Z ;;
              ret (Resolved ds)
        end
    end.

(* ================================================================== *)
(** ** Properties of detections and of the ambient world *)

(** Every result of [Math.random()] lies in [0, 1). *)
Definition unit_draws (w : World) : Prop :=
  forall n : nat, 0 <= random_tape w n /\ random_tape w n < 1.

(** The box lies inside the frame. *)
Definition within_frame (l : Location) : Prop :=
  0 <= loc_x l /\ 0 <= loc_y l
  /\ loc_x l + loc_width l <= 1 /\ loc_y l + loc_height l <= 1.

(** The corner of the box lies in the unit square. *)
Definition clamped_origin (l : Location) : Prop :=
  (0 <= loc_x l /\ loc_x l <= 1) /\ (0 <= loc_y l /\ loc_y l <= 1).

(** Neither side of the box is longer than the frame. *)
Definition clamped_size (l : Location) : Prop :=
  loc_width l <= 1 /\ loc_height l <= 1.

Definition raw_demo (r : RawPrediction) : bool :=
  match r with
  | RawDemo _ _ => true
  | RawModel _ => false
  end.

(** The value is a string that starts with [p]. *)
Definition value_starts_with (v : Value) (p : string) : bool :=
  match v with
  | VString s => startsWith s p
  | _ => false
  end.

(** The marks of a mock detection. *)
Definition synthetic_marker (d : RoboflowDetection) : bool :=
  startsWith (id d) "demo_mold_"
  && value_starts_with (description d) "Demo:"
  && raw_demo (rawPrediction d).

(** The minimum confidence of the configuration ([CONFIDENCE_THRESHOLD]). *)
Definition CONFIDENCE_THRESHOLD : Number := 0.5.

(** Confidence gating as the specification words it: no detection comes
    from a prediction whose confidence is below the threshold. *)
Definition gated (threshold : Number) (ds : list RoboflowDetection) : Prop :=
  forall d p, In d ds -> rawPrediction d = RawModel p ->
              ~ or_else (p_confidence p) 0 < threshold.

(** A numeric property that is missing or falsy. *)
Definition absent (v : option Number) : Prop :=
  v = None \/ exists n, v = Some n /\ n == 0.

(** [r] is the property [v] with default [d], spelt out case by case. *)
Definition defaulted (v : option Number) (d r : Number) : Prop :=
  (absent v -> r = d) /\ (forall n, v = Some n -> ~ n == 0 -> r = n).

Definition defaulted_class (v : option string) (r : string) : Prop :=
  (v = None -> r = "mold"%string)
  /\ (forall c, v = Some c -> c <> ""%string -> r = c).

(** The detection [d] is the image of the prediction [p] for a frame:
    every field is computed from the defaulted properties of [p]. *)
Definition detection_of (imageElement : ImageElement) (p : Prediction)
    (d : RoboflowDetection) : Prop :=
  let image_w := inject_Z (img_width imageElement) in
  let image_h := inject_Z (img_height imageElement) in
  exists c wd ht px py cls,
    defaulted (p_confidence p) 0 c
    /\ defaulted (p_width p) 50 wd
    /\ defaulted (p_height p) 50 ht
    /\ defaulted (p_x p) 0 px
    /\ defaulted (p_y p) 0 py
    /\ defaulted_class (p_class p) cls
    /\ confidence d = c
    /\ class d = cls
    /\ severity d = determineSeverity c ((wd * ht) / (image_w * image_h))
    /\ location d =
         {| loc_x := Math_max 0 (Math_min 1 ((px - wd / 2) / image_w));
            loc_y := Math_max 0 (Math_min 1 ((py - ht / 2) / image_h));
            loc_width := Math_min 1 (wd / image_w);
            loc_height := Math_min 1 (ht / image_h) |}
    /\ description d = generateDescription cls c
    /\ recommendations d = getMoldRecommendations (severity d)
    /\ rawPrediction d = RawModel p.

(* ================================================================== *)
(** ** Sample inputs *)

Definition sample_frame : ImageElement := mkImage 640 480.

(** A world whose every draw is 0.99 and whose clock stands still. *)
Definition sample_world : World :=
  mkWorld (fun _ => 0.99) 0 (fun _ => 1700000000000%Z) 0.

(** A box of 200 by 100 pixels centred 40 pixels from the right edge of
    [sample_frame]. *)
Definition edge_prediction : Prediction :=
  mkPrediction (Some "mold"%string) (Some 0.9)
               (Some 600) (Some 240) (Some 200) (Some 100).

(** A finding just below the default threshold. *)
Definition weak_prediction : Prediction :=
  mkPrediction (Some "mold"%string) (Some 0.49)
               (Some 320) (Some 240) (Some 64) (Some 48).

(** A finding whose class is a name that every object inherits. *)
Definition inherited_name_prediction : Prediction :=
  mkPrediction (Some "constructor"%string) (Some 0.9)
               (Some 320) (Some 240) (Some 64) (Some 48).


(** An object with no property at all. *)
Definition empty_prediction : Prediction :=
  mkPrediction None None None None None None.

(** A service initialised with a real key whose model answers [outcome]. *)
Definition service_answering (outcome : DetectOutcome) : Service :=
  fst (initialize "rf_live_key" (Loaded (fun _ => outcome))
                  (new_service (Some "rf_live_key"%string))).

Definition demo_service : Service := new_service (Some "demo"%string).

(** A service whose model call fails with a timeout. *)
Definition timed_out_service : Service :=
  service_answering (DetectThrows (ThrownError "Request timed out")).

(** A service whose initialisation failed. *)
Definition unavailable_service : Service :=
  fst (initialize "rf_live_key" (LoadThrows (ThrownError "Network unreachable"))
                  (new_service None)).

(* ================================================================== *)
(** ** Well-formed detections *)



(** A class whose lower-cased name is not a name that the object literal
    of [generateDescription] inherits. *)
Definition ordinary_class (className : string) : Prop :=
  toLowerCase className <> "constructor"%string
  /\ toLowerCase className <> "__proto__"%string.

(** The area of the box of a detection, relative to the frame. *)
Definition box_area (d : RoboflowDetection) : Number :=
  loc_width (location d) * loc_height (location d).

(* ================================================================== *)
(** ** Boxes and identifiers *)


(** The character occurs in the string. *)
Fixpoint contains_char (c : ascii) (s : string) : bool :=
  match s with
  | EmptyString => false
  | String a r => Ascii.eqb a c || contains_char c r
  end.

(** An id made of a prefix, a time and an index that is at least [i]. *)
Definition indexed_id (prefix : string) (i : Z) (d : RoboflowDetection) : Prop :=
  exists now j,
    (i <= j)%Z
    /\ id d = (prefix ++ Number_toString now ++ "_" ++ Number_toString j)%string.

(* ================================================================== *)
(** ** The form that asks for the API key ([RoboflowSetup]) *)

Module RoboflowSetup.

(** The text of the input field, as its UTF-16 code units. *)
Definition CodeUnits := list N.

(** The code units that [String.prototype.trim] strips (WhiteSpace and
    LineTerminator): U+0009 to U+000D, U+0020, U+00A0, U+1680, U+2000 to
    U+200A, U+2028, U+2029, U+202F, U+205F, U+3000 and U+FEFF. *)
Definition is_white_space (c : N) : bool :=
  (((9 <=? c) && (c <=? 13)) || (c =? 32) || (c =? 160) || (c =? 5760)
   || ((8192 <=? c) && (c <=? 8202)) || (c =? 8232) || (c =? 8233)
   || (c =? 8239) || (c =? 8287) || (c =? 12288) || (c =? 65279))%N.

Fixpoint trimStart (s : CodeUnits) : CodeUnits :=
  match s with
  | [] => []
  | c :: r => if is_white_space c then trimStart r else s
  end.

Definition trimEnd (s : CodeUnits) : CodeUnits := rev (trimStart (rev s)).

Definition trim (s : CodeUnits) : CodeUnits := trimEnd (trimStart s).

(** [handleSubmit]: what [onApiKeySubmit] is called with, or [None] when it
    is not called. [apiKey] is the state of the input field. *)
Definition handleSubmit (apiKey : CodeUnits) : option CodeUnits :=
  match trim apiKey with
  | [] => None
  | _ :: _ => Some (trim apiKey)
  end.

(** 'demo' *)
Definition demo_key : CodeUnits := [100; 101; 109; 111]%N.

(** [handleDemoMode]: what [onApiKeySubmit] is called with. *)
Definition handleDemoMode : CodeUnits := demo_key.

(** Every code unit is white space. *)
Definition blank (s : CodeUnits) : bool := forallb is_white_space s.

End RoboflowSetup.

(* ================================================================== *)
(** ** Comparisons, minimum and maximum *)

Lemma gt_true_iff (a b : Number) : gt a b = true <-> b < a.
Proof.
  unfold gt. rewrite negb_true_iff, <- not_true_iff_false, Qle_bool_iff.
  split; [apply Qnot_le_lt | apply Qlt_not_le].
Qed.

Lemma gt_false_iff (a b : Number) : gt a b = false <-> a <= b.
Proof.
  unfold gt. rewrite negb_false_iff. apply Qle_bool_iff.
Qed.

Lemma gt_reflect (a b : Number) : reflect (b < a) (gt a b).
Proof.
  destruct (gt a b) eqn:E; constructor.
  - now apply gt_true_iff.
  - apply gt_false_iff in E. now apply Qle_not_lt.
Qed.

Lemma Math_min_le_l (a b : Number) : Math_min a b <= a.
Proof.
  unfold Math_min. destruct (Qle_bool a b) eqn:E.
  - apply Qle_refl.
  - apply Qlt_le_weak, Qnot_le_lt. intro H. apply Qle_bool_iff in H. congruence.
Qed.

Lemma Math_min_glb (a b c : Number) : c <= a -> c <= b -> c <= Math_min a b.
Proof. unfold Math_min. now destruct (Qle_bool a b). Qed.

Lemma Math_max_le_l (a b : Number) : a <= Math_max a b.
Proof.
  unfold Math_max. destruct (Qle_bool a b) eqn:E.
  - now apply Qle_bool_iff.
  - apply Qle_refl.
Qed.

Lemma Math_max_lub (a b c : Number) : a <= c -> b <= c -> Math_max a b <= c.
Proof. unfold Math_max. now destruct (Qle_bool a b). Qed.

(** [Math.max(0, Math.min(1, v))] lies in the unit interval. *)
Lemma clamp_unit (v : Number) :
  0 <= Math_max 0 (Math_min 1 v) <= 1.
Proof.
  split.
  - apply Math_max_le_l.
  - apply Math_max_lub; [lra | apply Math_min_le_l].
Qed.

(* ================================================================== *)
(** ** The severity classifier *)

Ltac severity_cases c a :=
  unfold determineSeverity;
  destruct (gt_reflect c 0.8); destruct (gt_reflect a 0.1);
  destruct (gt_reflect c 0.7); destruct (gt_reflect a 0.05);
  destruct (gt_reflect c 0.6); cbn [andb orb].

(** C1. [determineSeverity] is the classifier of the specification: on
    every pair (confidence, relative area) it answers the tier of the
    first rule that applies, among critical (confidence > 0.80 and area >
    0.10), high (confidence > 0.70 or area > 0.05), medium (confidence >
    0.60) and low (otherwise). The comparisons are strict: confidence 0.80
    with area 0.10 is not critical. *)
Theorem determineSeverity_first_match :
  (forall (confidence area : Number) (s : Severity),
      determineSeverity confidence area = s <-> severity_spec confidence area s)
  /\ determineSeverity 0.80 0.10 <> Critical.
Proof.
  split.
  - intros c a s. severity_cases c a;
      destruct s; unfold severity_spec, rule_critical, rule_high, rule_medium;
      split; intro H; try discriminate H; try reflexivity;
      try (exfalso; tauto); try tauto; try (exfalso; lra).
  - discriminate.
Qed.

(** C4. The classifier is monotone: raising the confidence, the relative
    area, or both never lowers the severity in the order
    low < medium < high < critical. *)
Theorem determineSeverity_monotone (confidence area confidence' area' : Number) :
  confidence <= confidence' ->
  area <= area' ->
  severity_le (determineSeverity confidence area)
              (determineSeverity confidence' area').
Proof.
  intros Hc Ha. unfold severity_le.
  severity_cases confidence area; severity_cases confidence' area';
    cbn [severity_rank]; try lia; exfalso; lra.
Qed.

Lemma determineSeverity_monotone_witness :
  0.65 <= 0.85 /\ 0.02 <= 0.12
  /\ severity_le (determineSeverity 0.65 0.02) (determineSeverity 0.85 0.12).
Proof.
  split; [| split].
  - discriminate.
  - discriminate.
  - apply (determineSeverity_monotone 0.65 0.02 0.85 0.12); discriminate.
Defined.

(* ================================================================== *)
(** ** Defaults of absent properties *)

Lemma or_else_defaulted (v : option Number) (d : Number) :
  defaulted v d (or_else v d).
Proof.
  split.
  - intros [-> | (n & -> & Hn)]; cbn; [reflexivity |].
    apply Qeq_bool_iff in Hn. now rewrite Hn.
  - intros n -> Hn. cbn. destruct (Qeq_bool n 0) eqn:E; [| reflexivity].
    apply Qeq_bool_iff in E. contradiction.
Qed.

Lemma or_else_string_defaulted (v : option string) :
  defaulted_class v (or_else_string v "mold").
Proof.
  split.
  - now intros ->.
  - intros c -> Hc. destruct c; [contradiction | reflexivity].
Qed.

(* ================================================================== *)
(** ** The mapping of predictions *)

Lemma map_indexed_Forall2 {A B} (callback : A -> Z -> M B) (R : A -> B -> Prop) :
  (forall a i w, R a (fst (callback a i w))) ->
  forall l i w, Forall2 R l (fst (map_indexed callback l i w)).
Proof.
  intros HR. induction l as [| a rest IH]; intros i w; cbn.
  - constructor.
  - unfold bind. specialize (HR a i w).
    destruct (callback a i w) as [b w1]. specialize (IH (i + 1)%Z w1).
    destruct (map_indexed callback rest (i + 1)%Z w1) as [bs w2].
    cbn in *. now constructor.
Qed.

Lemma Forall2_Forall_right {A B} (R : A -> B -> Prop) (P : B -> Prop) :
  (forall a b, R a b -> P b) ->
  forall l l', Forall2 R l l' -> Forall P l'.
Proof.
  intros HP l l' H. induction H; constructor; eauto.
Qed.

Lemma detectionOfPrediction_spec imageElement p i w :
  detection_of imageElement p (fst (detectionOfPrediction imageElement p i w)).
Proof.
  exists (or_else (p_confidence p) 0), (or_else (p_width p) 50),
    (or_else (p_height p) 50), (or_else (p_x p) 0), (or_else (p_y p) 0),
    (or_else_string (p_class p) "mold").
  repeat (split;
          [first [exact (or_else_defaulted _ _) | exact (or_else_string_defaulted _)] |]).
  cbn. repeat split; reflexivity.
Qed.

(** With a key other than 'demo', an initialised service and a model that
    answers an array, the result is the image of that array. *)
Lemma detectMold_maps_predictions s imageElement w m ps :
  is_demo (apiKey s) = false ->
  isInitialized s = true ->
  model s = Some m ->
  detect m imageElement = DetectReturns (PArray ps) ->
  fst (detectMold s imageElement w)
  = Resolved (fst (map_indexed (detectionOfPrediction imageElement) ps 0%Z w)).
Proof.
  intros Hkey Hinit Hmodel Hdetect.
  unfold detectMold, isAvailable, has_model.
  rewrite Hkey, Hinit, Hmodel, Hdetect. cbn [andb orb negb].
  destruct ps as [| p ps]; [reflexivity |].
  cbn [List.length Nat.eqb]. unfold bind.
  now destruct (map_indexed _ _ _ _).
Qed.

(** Whatever a service outside demo mode resolves to, each detection is the
    image of a prediction. *)
Lemma detectMold_resolved_shape s imageElement w :
  is_demo (apiKey s) = false ->
  match fst (detectMold s imageElement w) with
  | Resolved ds =>
      Forall (fun d => exists p i w0,
                  d = fst (detectionOfPrediction imageElement p i w0)) ds
  | Rejected _ => True
  end.
Proof.
  intros Hkey. unfold detectMold. rewrite Hkey.
  destruct (negb (isAvailable s) || negb (has_model s)); [exact I |].
  destruct (model s) as [m |]; [| exact I].
  destruct (detect m imageElement) as [[ | | ps] | e]; cbn; auto.
  destruct (List.length ps =? 0)%nat; cbn; [constructor |].
  unfold bind.
  pose proof (map_indexed_Forall2 (detectionOfPrediction imageElement)
                (fun p d => exists i w0,
                     d = fst (detectionOfPrediction imageElement p i w0))) as H.
  specialize (H (fun a i w1 => ex_intro _ i (ex_intro _ w1 eq_refl)) ps 0%Z w).
  destruct (map_indexed _ _ _ _) as [ds w1]. cbn in *.
  eapply Forall2_Forall_right; [| exact H].
  intros p d (i & w0 & ->). eauto.
Qed.

(* ================================================================== *)
(** ** The generator of mock detections *)

Ltac run_mock :=
  cbv beta iota zeta delta
    [mockDetection bind ret Math_random Date_now fst snd
     random_tape random_pos clock_tape clock_pos
     id severity confidence location description recommendations class
     rawPrediction loc_x loc_y loc_width loc_height].

Lemma mockDetection_tape i w :
  random_tape (snd (mockDetection i w)) = random_tape w.
Proof. destruct w. reflexivity. Qed.

Lemma mock_loop_length n : forall i w, List.length (fst (mock_loop n i w)) = n.
Proof.
  induction n as [| n IH]; intros i w; cbn [mock_loop]; [reflexivity |].
  unfold bind. destruct (mockDetection i w) as [d w1].
  specialize (IH (i + 1)%Z w1). destruct (mock_loop n (i + 1)%Z w1) as [ds w2].
  cbn in *. now rewrite IH.
Qed.

(** A property of every turn of the loop, on any world reading the tape
    [tape], holds of every detection of the loop. *)
Lemma mock_loop_Forall (P : RoboflowDetection -> Prop) (tape : nat -> Number) :
  (forall i w, random_tape w = tape -> P (fst (mockDetection i w))) ->
  forall n i w, random_tape w = tape -> Forall P (fst (mock_loop n i w)).
Proof.
  intros HP. induction n as [| n IH]; intros i w Hw; cbn [mock_loop].
  - constructor.
  - unfold bind. pose proof (HP i w Hw) as Hd.
    pose proof (mockDetection_tape i w) as Ht.
    destruct (mockDetection i w) as [d w1]. cbn [fst snd] in *.
    assert (Hw1 : random_tape w1 = tape) by congruence.
    specialize (IH (i + 1)%Z w1 Hw1).
    destruct (mock_loop n (i + 1)%Z w1) as [ds w2]. cbn. now constructor.
Qed.

Lemma generateMockDetections_Forall (P : RoboflowDetection -> Prop) imageElement w :
  (forall i w0, random_tape w0 = random_tape w -> P (fst (mockDetection i w0))) ->
  Forall P (fst (generateMockDetections imageElement w)).
Proof.
  intros HP. unfold generateMockDetections, bind, Math_random.
  apply (mock_loop_Forall P (random_tape w) HP). reflexivity.
Qed.

Lemma generateMockDetections_length imageElement w :
  List.length (fst (generateMockDetections imageElement w))
  = Z.to_nat (Math_floor (random_tape w (random_pos w) * 3)).
Proof.
  unfold generateMockDetections, bind, Math_random. apply mock_loop_length.
Qed.

(** A draw from [0, 1) asks for at most two detections. *)
Lemma numDetections_bound (r : Number) :
  0 <= r -> r < 1 -> (0 <= Math_floor (r * 3)%Q <= 2)%Z.
Proof.
  intros H0 H1. unfold Math_floor. split.
  - change 0%Z with (Qfloor 0). apply Qfloor_resp_le. lra.
  - assert (H : inject_Z (Qfloor (r * 3)) < inject_Z 3).
    { apply Qle_lt_trans with (r * 3); [apply Qfloor_le |].
      change (inject_Z 3) with 3. lra. }
    rewrite <- Zlt_Qlt in H. lia.
Qed.

Lemma mockDetection_confidence i w :
  unit_draws w ->
  0.6 <= confidence (fst (mockDetection i w))
  /\ confidence (fst (mockDetection i w)) <= 0.9.
Proof.
  destruct w as [tape pos clock tick]. intros H. run_mock.
  destruct (H pos) as [H0 H1]. cbn [random_tape] in H0, H1. split; lra.
Qed.

Lemma mockDetection_area i w :
  unit_draws w ->
  exists area,
    rawPrediction (fst (mockDetection i w))
    = RawDemo (confidence (fst (mockDetection i w))) area
    /\ severity (fst (mockDetection i w))
       = determineSeverity (confidence (fst (mockDetection i w))) area
    /\ 0.01 <= area /\ area <= 0.06.
Proof.
  destruct w as [tape pos clock tick]. intros H. run_mock.
  eexists. split; [reflexivity |]. split; [reflexivity |].
  destruct (H (S pos)) as [H0 H1]. cbn [random_tape] in H0, H1. split; lra.
Qed.

Lemma mockDetection_origin i w :
  unit_draws w -> clamped_origin (location (fst (mockDetection i w))).
Proof.
  destruct w as [tape pos clock tick]. intros H. unfold clamped_origin. run_mock.
  destruct (H (S (S pos))) as [Hx0 Hx1], (H (S (S (S pos)))) as [Hy0 Hy1].
  cbn [random_tape] in Hx0, Hx1, Hy0, Hy1. repeat split; lra.
Qed.

Lemma startsWith_append (s t p : string) :
  startsWith s p = true -> startsWith (s ++ t) p = true.
Proof.
  revert s. induction p as [| a p IH]; intros s H; [reflexivity |].
  destruct s as [| b s]; [discriminate |]. cbn in *.
  apply andb_true_iff in H. destruct H as [-> H]. now rewrite IH.
Qed.

Lemma Math_sqrt_le (a b : Number) : a <= b -> Math_sqrt a <= Math_sqrt b.
Proof.
  intros H. unfold Math_sqrt, Qle. cbn [Qnum Qden].
  apply Z.mul_le_mono_nonneg_r; [lia |].
  apply Z.sqrt_le_mono, Qfloor_resp_le.
  apply Qmult_le_compat_r; [exact H | discriminate].
Qed.

Lemma mockDetection_size i w :
  unit_draws w -> clamped_size (location (fst (mockDetection i w))).
Proof.
  destruct w as [tape pos clock tick]. intros H. unfold clamped_size. run_mock.
  destruct (H (S pos)) as [Ha0 Ha1].
  destruct (H (S (S (S (S pos))))) as [Hw0 Hw1].
  destruct (H (S (S (S (S (S pos)))))) as [Hh0 Hh1].
  cbn [random_tape] in Ha0, Ha1, Hw0, Hw1, Hh0, Hh1.
  assert (Hroot : Math_sqrt (0.01 + tape (S pos) * 0.05) <= 0.25).
  { apply Qle_trans with (Math_sqrt 0.06); [apply Math_sqrt_le; lra |].
    vm_compute. discriminate. }
  split; lra.
Qed.

Lemma mockDetection_marker i w : synthetic_marker (fst (mockDetection i w)) = true.
Proof.
  unfold synthetic_marker. run_mock. unfold value_starts_with, raw_demo.
  now rewrite !startsWith_append.
Qed.

Lemma unit_draws_tape w w0 :
  random_tape w0 = random_tape w -> unit_draws w -> unit_draws w0.
Proof. unfold unit_draws. now intros ->. Qed.

Lemma detectMold_demo s imageElement w :
  is_demo (apiKey s) = true ->
  detectMold s imageElement w
  = (Resolved (fst (generateMockDetections imageElement w)),
     snd (generateMockDetections imageElement w)).
Proof.
  intros Hkey. unfold detectMold. rewrite Hkey. unfold bind, ret.
  now destruct (generateMockDetections imageElement w).
Qed.

Lemma detectionOfPrediction_clamped imageElement p i w :
  clamped_origin (location (fst (detectionOfPrediction imageElement p i w)))
  /\ clamped_size (location (fst (detectionOfPrediction imageElement p i w))).
Proof.
  destruct (detectionOfPrediction_spec imageElement p i w)
    as (c & wd & ht & px & py & cls & _ & _ & _ & _ & _ & _ & _ & _ & _ & Hloc & _).
  rewrite Hloc. unfold clamped_origin, clamped_size. cbn [loc_x loc_y loc_width loc_height].
  repeat split; first [apply clamp_unit | apply Math_min_le_l].
Qed.

(* ================================================================== *)
(** ** The location box *)

(** C2, as stated, fails on both paths: a predicted box of 200 pixels
    centred 40 pixels from the right edge of a frame 640 wide is emitted
    with [x = 500/640] and [width = 200/640], and a mock detection drawn
    with 0.99 everywhere starts at 0.793 and is more than 0.3 wide. *)
Lemma location_within_frame_counterexample :
  (exists d,
      fst (detectMold (service_answering (DetectReturns (PArray [edge_prediction])))
                      sample_frame sample_world) = Resolved [d]
      /\ ~ within_frame (location d))
  /\ (exists d ds,
         fst (generateMockDetections sample_frame sample_world) = d :: ds
         /\ ~ within_frame (location d)).
Proof.
  split.
  - eexists. split; [vm_compute; reflexivity |].
    intros (_ & _ & H & _). vm_compute in H. now apply H.
  - eexists. eexists. split; [vm_compute; reflexivity |].
    intros (_ & _ & H & _). vm_compute in H. now apply H.
Qed.

(** C2, amended. For a frame of positive width and height and draws in
    [0, 1), every detection that [detectMold] resolves to, from a model
    prediction or from the mock generator, has its corner in the unit
    square ([0 <= x <= 1], [0 <= y <= 1]) and sides no longer than the
    frame ([width <= 1], [height <= 1]). (The two hypotheses on the frame
    matter in the source, where a quotient by zero is infinite or [NaN];
    [x + width <= 1] and [y + height <= 1] are not part of the statement.) *)
Theorem location_clamped (s : Service) (imageElement : ImageElement) (w : World) :
  (0 < img_width imageElement)%Z ->
  (0 < img_height imageElement)%Z ->
  unit_draws w ->
  match fst (detectMold s imageElement w) with
  | Resolved ds =>
      Forall (fun d => clamped_origin (location d)
                       /\ clamped_size (location d)) ds
  | Rejected _ => True
  end.
Proof.
  intros _ _ Hdraws. destruct (is_demo (apiKey s)) eqn:Hkey.
  - rewrite (detectMold_demo _ _ _ Hkey). cbn [fst].
    apply generateMockDetections_Forall. intros i w0 Htape.
    pose proof (unit_draws_tape w w0 Htape Hdraws) as H0. split.
    + now apply mockDetection_origin.
    + now apply mockDetection_size.
  - pose proof (detectMold_resolved_shape s imageElement w Hkey) as H.
    destruct (fst (detectMold s imageElement w)) as [ds | msg]; [| exact I].
    eapply Forall_impl; [| exact H].
    intros d (p & i & w0 & ->).
    apply detectionOfPrediction_clamped.
Qed.

Lemma location_clamped_witness :
  (0 < img_width sample_frame)%Z
  /\ (0 < img_height sample_frame)%Z
  /\ unit_draws sample_world
  /\ match fst (detectMold
                  (service_answering
                     (DetectReturns (PArray [edge_prediction; empty_prediction])))
                  sample_frame sample_world) with
     | Resolved ds =>
         Forall (fun d => clamped_origin (location d)
                          /\ clamped_size (location d)) ds
     | Rejected _ => True
     end.
Proof.
  assert (Hdraws : unit_draws sample_world).
  { intros n. cbn. split; [discriminate | reflexivity]. }
  split; [reflexivity |]. split; [reflexivity |]. split; [exact Hdraws |].
  apply (location_clamped
           (service_answering
              (DetectReturns (PArray [edge_prediction; empty_prediction])))
           sample_frame sample_world);
    [reflexivity | reflexivity | exact Hdraws].
Defined.

(* ================================================================== *)
(** ** Confidence of the emitted detections *)

Lemma Forall2_map_eq {A B C} (f : A -> C) (g : B -> C) (l : list A) (l' : list B) :
  Forall2 (fun a b => g b = f a) l l' -> map g l' = map f l.
Proof.
  induction 1 as [| a b l l' Hab _ IH]; cbn; [reflexivity |].
  now rewrite Hab, IH.
Qed.

(** C3, as stated, fails: a prediction of confidence 0.49 is emitted,
    with that confidence, although the threshold is 0.5. *)
Lemma confidence_gating_counterexample :
  exists ds,
    fst (detectMold (service_answering (DetectReturns (PArray [weak_prediction])))
                    sample_frame sample_world) = Resolved ds
    /\ ~ gated CONFIDENCE_THRESHOLD ds.
Proof.
  eexists. split; [vm_compute; reflexivity |].
  intros H. eapply H; [left; reflexivity | reflexivity | reflexivity].
Qed.

(** C3, amended. [detectMold] applies no confidence threshold: when the
    model answers an array, every prediction of the array, whatever its
    confidence, yields one detection, in the order of the array, that
    carries the prediction as [rawPrediction] and its confidence (0 when
    the property is missing or falsy) as [confidence]. *)
Theorem detectMold_keeps_every_prediction
    (s : Service) (imageElement : ImageElement) (w : World)
    (m : Model) (ps : list Prediction) :
  is_demo (apiKey s) = false ->
  isInitialized s = true ->
  model s = Some m ->
  detect m imageElement = DetectReturns (PArray ps) ->
  exists ds,
    fst (detectMold s imageElement w) = Resolved ds
    /\ map rawPrediction ds = map RawModel ps
    /\ map confidence ds = map (fun p => or_else (p_confidence p) 0) ps.
Proof.
  intros Hkey Hinit Hmodel Hdetect.
  rewrite (detectMold_maps_predictions s imageElement w m ps Hkey Hinit Hmodel Hdetect).
  eexists. split; [reflexivity |]. split.
  - apply Forall2_map_eq.
    apply (map_indexed_Forall2 (detectionOfPrediction imageElement)
             (fun p d => rawPrediction d = RawModel p)).
    reflexivity.
  - apply (Forall2_map_eq (fun p => or_else (p_confidence p) 0) confidence).
    apply (map_indexed_Forall2 (detectionOfPrediction imageElement)
             (fun p d => confidence d = or_else (p_confidence p) 0)).
    reflexivity.
Qed.

Lemma detectMold_keeps_every_prediction_witness :
  exists ds,
    fst (detectMold (service_answering (DetectReturns (PArray [weak_prediction; edge_prediction])))
                    sample_frame sample_world) = Resolved ds
    /\ map rawPrediction ds = map RawModel [weak_prediction; edge_prediction]
    /\ map confidence ds
       = map (fun p => or_else (p_confidence p) 0) [weak_prediction; edge_prediction].
Proof.
  apply (detectMold_keeps_every_prediction
           (service_answering (DetectReturns (PArray [weak_prediction; edge_prediction])))
           sample_frame sample_world
           (mkModel model_path
              (fun _ => DetectReturns (PArray [weak_prediction; edge_prediction])))
           [weak_prediction; edge_prediction]);
    reflexivity.
Defined.

(* ================================================================== *)
(** ** Bounds of the mock detections *)

(** X16. Whatever the frame and the draws (each in [0, 1)), the generator
    of mock detections returns at most two detections, each with a
    confidence in [0.6, 0.9]; the area drawn for a detection, which is
    recorded as [rawPrediction.area] and is the one its severity is
    computed from, lies in [0.01, 0.06]. (The box of the detection is not
    made to that area, see C5.) *)
Theorem generateMockDetections_bounded (imageElement : ImageElement) (w : World) :
  unit_draws w ->
  (List.length (fst (generateMockDetections imageElement w)) <= 2)%nat
  /\ Forall (fun d =>
               (0.6 <= confidence d /\ confidence d <= 0.9)
               /\ exists area,
                   rawPrediction d = RawDemo (confidence d) area
                   /\ severity d = determineSeverity (confidence d) area
                   /\ 0.01 <= area /\ area <= 0.06)
            (fst (generateMockDetections imageElement w)).
Proof.
  intros Hdraws. split.
  - rewrite generateMockDetections_length.
    destruct (Hdraws (random_pos w)) as [H0 H1].
    pose proof (numDetections_bound _ H0 H1). lia.
  - apply generateMockDetections_Forall. intros i w0 Htape.
    pose proof (unit_draws_tape w w0 Htape Hdraws) as H0. split.
    + now apply mockDetection_confidence.
    + now apply mockDetection_area.
Qed.

Lemma generateMockDetections_bounded_witness :
  unit_draws sample_world
  /\ (List.length (fst (generateMockDetections sample_frame sample_world)) <= 2)%nat
  /\ Forall (fun d =>
               (0.6 <= confidence d /\ confidence d <= 0.9)
               /\ exists area,
                   rawPrediction d = RawDemo (confidence d) area
                   /\ severity d = determineSeverity (confidence d) area
                   /\ 0.01 <= area /\ area <= 0.06)
            (fst (generateMockDetections sample_frame sample_world)).
Proof.
  assert (Hdraws : unit_draws sample_world).
  { intros n. cbn. split; [discriminate | reflexivity]. }
  split; [exact Hdraws |].
  apply (generateMockDetections_bounded sample_frame sample_world). exact Hdraws.
Defined.

(** C5. The count and the confidence of the mock detections are as
    stated, and so is the area that is drawn ('1-6% of image area'), but
    the box is not made to that area: each side is the square root of the
    area plus up to 0.1. With every draw at 0.99 the first mock detection
    records the area 0.0595 and has a box whose relative area exceeds 0.06
    (it is about 0.1176): its severity, computed from the area drawn, is
    high, where the area of its box would make it critical. *)
Theorem generateMockDetections_box_exceeds_area :
  exists d ds area,
    fst (generateMockDetections sample_frame sample_world) = d :: ds
    /\ rawPrediction d = RawDemo (confidence d) area
    /\ area == 0.0595
    /\ (0.6 <= confidence d /\ confidence d <= 0.9)
    /\ 0.06 < box_area d
    /\ severity d = High
    /\ determineSeverity (confidence d) (box_area d) = Critical.
Proof.
  eexists. eexists. eexists.
  split; [vm_compute; reflexivity |].
  split; [reflexivity |].
  repeat split; vm_compute; reflexivity || discriminate.
Qed.

(* ================================================================== *)
(** ** Failures of the model *)

(** C6, as stated, fails: when the call to the model throws, and when the
    service could not be initialised, [detectMold] rejects; it does not
    resolve to the empty list. *)
Lemma failure_absorbed_counterexample :
  (fst (detectMold timed_out_service sample_frame sample_world)
   = Rejected "Mold detection failed: Request timed out"
   /\ fst (detectMold timed_out_service sample_frame sample_world) <> Resolved [])
  /\ (fst (detectMold unavailable_service sample_frame sample_world)
      = Rejected "Roboflow model not initialized"
      /\ fst (detectMold unavailable_service sample_frame sample_world) <> Resolved []).
Proof.
  repeat split; try reflexivity; discriminate.
Qed.

(** C6, amended. Outside demo mode a failure is handed to the caller:
    when the call to the model throws, [detectMold] rejects with 'Mold
    detection failed: ' followed by the message of the error ('Unknown
    error' for a value that is not an [Error]); when the service is not
    initialised or has no model, it rejects with 'Roboflow model not
    initialized'. The empty list is the answer when the model returns
    without error a falsy value, a value that is not an array, or an empty
    array. In each case nothing is drawn and the clock is not read. *)
Theorem detectMold_failure_rejects
    (s : Service) (imageElement : ImageElement) (w : World) :
  is_demo (apiKey s) = false ->
  (forall m e,
      isInitialized s = true -> model s = Some m ->
      detect m imageElement = DetectThrows e ->
      detectMold s imageElement w
      = (Rejected ("Mold detection failed: " ++ message_of e), w))
  /\ (isInitialized s = false \/ model s = None ->
      detectMold s imageElement w = (Rejected "Roboflow model not initialized", w))
  /\ (forall m,
         isInitialized s = true -> model s = Some m ->
         detect m imageElement = DetectReturns PFalsy
         \/ detect m imageElement = DetectReturns PNotArray
         \/ detect m imageElement = DetectReturns (PArray []) ->
         detectMold s imageElement w = (Resolved [], w)).
Proof.
  intros Hkey. unfold detectMold, isAvailable, has_model. rewrite Hkey.
  repeat split.
  - intros m e -> -> ->. reflexivity.
  - intros [-> | ->]; [reflexivity |].
    now destruct (isInitialized s).
  - intros m -> -> [-> | [-> | ->]]; reflexivity.
Qed.

Lemma detectMold_failure_rejects_witness :
  is_demo (apiKey (service_answering (DetectThrows ThrownOther))) = false
  /\ detectMold (service_answering (DetectThrows ThrownOther)) sample_frame sample_world
     = (Rejected "Mold detection failed: Unknown error", sample_world).
Proof.
  split; [reflexivity |].
  apply (proj1 (detectMold_failure_rejects
                  (service_answering (DetectThrows ThrownOther))
                  sample_frame sample_world eq_refl)
               (mkModel model_path (fun _ => DetectThrows ThrownOther))
               ThrownOther);
    reflexivity.
Defined.

(* ================================================================== *)
(** ** Descriptions *)

Lemma inherited_is_builtin (key : string) :
  match assoc Object_prototype key with
  | Some (VBuiltin _) | None => True
  | Some _ => False
  end.
Proof.
  unfold Object_prototype. cbn [assoc].
  repeat match goal with
         | |- context [String.eqb ?k key] => destruct (String.eqb k key)
         end; exact I.
Qed.

(** Whatever the class, what [generateDescription] returns is not a string
    that starts with 'Demo:'. *)
Lemma generateDescription_not_demo (className : string) (confidence : Number) :
  value_starts_with (generateDescription className confidence) "Demo:" = false.
Proof.
  unfold generateDescription, or_value, get, descriptions. cbn [assoc].
  set (key := toLowerCase className).
  repeat match goal with
         | |- context [String.eqb ?k key] => destruct (String.eqb k key)
         end; try reflexivity.
  pose proof (inherited_is_builtin key) as H.
  destruct (assoc Object_prototype key) as [[| s | name] |];
    try contradiction; reflexivity.
Qed.

(* ================================================================== *)
(** ** The marks of a mock detection *)

Lemma detectionOfPrediction_unmarked imageElement p i w :
  let d := fst (detectionOfPrediction imageElement p i w) in
  startsWith (id d) "demo_mold_" = false
  /\ value_starts_with (description d) "Demo:" = false
  /\ raw_demo (rawPrediction d) = false
  /\ synthetic_marker d = false.
Proof.
  cbv zeta. unfold synthetic_marker.
  cbn [detectionOfPrediction bind ret Date_now fst id description rawPrediction].
  rewrite generateDescription_not_demo. repeat split; reflexivity.
Qed.

(** C7. Every mock detection carries the three marks of a synthetic
    finding (an id that starts with 'demo_mold_', a description that starts
    with 'Demo:', and [rawPrediction.demo = true]); a detection made from a
    model prediction carries none of them. So the two kinds are told apart
    by the detection alone. *)
Theorem synthetic_marker_separates :
  (forall imageElement w,
      Forall (fun d => synthetic_marker d = true)
             (fst (generateMockDetections imageElement w)))
  /\ (forall s imageElement w,
         is_demo (apiKey s) = false ->
         match fst (detectMold s imageElement w) with
         | Resolved ds =>
             Forall (fun d => startsWith (id d) "demo_mold_" = false
                              /\ value_starts_with (description d) "Demo:" = false
                              /\ raw_demo (rawPrediction d) = false
                              /\ synthetic_marker d = false) ds
         | Rejected _ => True
         end).
Proof.
  split.
  - intros imageElement w. apply generateMockDetections_Forall.
    intros i w0 _. apply mockDetection_marker.
  - intros s imageElement w Hkey.
    pose proof (detectMold_resolved_shape s imageElement w Hkey) as H.
    destruct (fst (detectMold s imageElement w)) as [ds | msg]; [| exact I].
    eapply Forall_impl; [| exact H].
    intros d (p & i & w0 & ->). apply detectionOfPrediction_unmarked.
Qed.

Lemma synthetic_marker_separates_witness :
  is_demo (apiKey (service_answering
                     (DetectReturns (PArray [edge_prediction; empty_prediction]))))
  = false
  /\ match fst (detectMold
                  (service_answering
                     (DetectReturns (PArray [edge_prediction; empty_prediction])))
                  sample_frame sample_world) with
     | Resolved ds =>
         Forall (fun d => startsWith (id d) "demo_mold_" = false
                          /\ value_starts_with (description d) "Demo:" = false
                          /\ raw_demo (rawPrediction d) = false
                          /\ synthetic_marker d = false) ds
     | Rejected _ => True
     end.
Proof.
  split; [reflexivity |].
  apply (proj2 synthetic_marker_separates
               (service_answering
                  (DetectReturns (PArray [edge_prediction; empty_prediction])))
               sample_frame sample_world).
  reflexivity.
Defined.

(* ================================================================== *)
(** ** Description templates *)

Lemma lower_ascii_not_upper (c : ascii) : is_upper (lower_ascii c) = false.
Proof. destruct c as [[] [] [] [] [] [] [] []]; reflexivity. Qed.

Lemma toLowerCase_no_upper (s : string) : has_upper (toLowerCase s) = false.
Proof.
  induction s as [| c r IH]; [reflexivity |].
  cbn [toLowerCase has_upper]. now rewrite lower_ascii_not_upper, IH.
Qed.

(** The only names a lower-cased key can inherit. *)
Lemma inherited_lowercase (className : string) :
  toLowerCase className <> "constructor"%string ->
  toLowerCase className <> "__proto__"%string ->
  assoc Object_prototype (toLowerCase className) = None.
Proof.
  intros Hc Hp. pose proof (toLowerCase_no_upper className) as Hup.
  set (key := toLowerCase className) in *.
  unfold Object_prototype. cbn [assoc].
  repeat match goal with
         | |- context [String.eqb ?k key] =>
             let E := fresh "E" in
             destruct (String.eqb k key) eqn:E;
             [apply String.eqb_eq in E; subst key;
              first [congruence | rewrite <- E in Hup; discriminate Hup] |]
         end.
  reflexivity.
Qed.

(** The three known classes, in any letter case, get their own template. *)
Lemma generateDescription_known (className : string) (confidence : Number) :
  let pct := Math_round (confidence * 100) in
  (toLowerCase className = "mold"%string ->
   generateDescription className confidence
   = VString ("Mold growth detected with " ++ percent_text pct))
  /\ (toLowerCase className = "mouldy"%string ->
      generateDescription className confidence
      = VString ("Moldy surface identified with " ++ percent_text pct))
  /\ (toLowerCase className = "fungal"%string ->
      generateDescription className confidence
      = VString ("Fungal growth observed with " ++ percent_text pct)).
Proof.
  cbv zeta. unfold generateDescription, get, descriptions.
  repeat split; intros ->; reflexivity.
Qed.

(** Every other class gets the generic template, unless its lower-cased
    name is a name inherited from [Object.prototype]. *)
Lemma generateDescription_fallback (className : string) (confidence : Number) :
  toLowerCase className <> "mold"%string ->
  toLowerCase className <> "mouldy"%string ->
  toLowerCase className <> "fungal"%string ->
  toLowerCase className <> "constructor"%string ->
  toLowerCase className <> "__proto__"%string ->
  generateDescription className confidence
  = VString (generic_description (Math_round (confidence * 100))).
Proof.
  intros H1 H2 H3 Hc Hp. unfold generateDescription, get, descriptions.
  cbn [assoc].
  rewrite (proj2 (String.eqb_neq _ _)) by congruence.
  rewrite (proj2 (String.eqb_neq _ _)) by congruence.
  rewrite (proj2 (String.eqb_neq _ _)) by congruence.
  now rewrite (inherited_lowercase className Hc Hp).
Qed.

(** C8 holds of every class but two. For the class 'constructor' (in any
    letter case) the lookup finds the member that the object literal
    inherits, which is truthy, so the generic template is not used and the
    result is not a string; likewise for '__proto__'. A prediction of that
    class is emitted by [detectMold] with that value as its description.
    An unknown class such as 'crack' gets the generic template. *)
Theorem generateDescription_inherited_key :
  generateDescription "constructor" 0.9 = VBuiltin "Object"
  /\ generateDescription "Constructor" 0.9
     <> VString "Mold-like substance detected with 90% confidence"
  /\ generateDescription "__proto__" 0.9 = VBuiltin "Object.prototype"
  /\ generateDescription "crack" 0.9
     = VString "Mold-like substance detected with 90% confidence"
  /\ exists d,
      fst (detectMold
             (service_answering (DetectReturns (PArray [inherited_name_prediction])))
             sample_frame sample_world) = Resolved [d]
      /\ description d = VBuiltin "Object".
Proof.
  repeat split; try reflexivity; try discriminate.
  eexists. split; [vm_compute; reflexivity | reflexivity].
Qed.

(* ================================================================== *)
(** ** Demo mode *)

(** C9. With the key 'demo', [detectMold] resolves to the mock detections
    whatever the other fields are, so it never rejects with 'Roboflow model
    not initialized': this holds of a service constructed with 'demo' and
    never initialised, whose model is null. And [initialize('demo')]
    resolves to [true], makes [isAvailable()] true and does not touch the
    model, which stays null on a new service. *)
Theorem demo_key_takes_mock_path :
  (forall s imageElement w,
      is_demo (apiKey s) = true ->
      fst (detectMold s imageElement w)
      = Resolved (fst (generateMockDetections imageElement w)))
  /\ (is_demo (apiKey demo_service) = true
      /\ model demo_service = None
      /\ isInitialized demo_service = false)
  /\ (forall load s,
         snd (initialize "demo" load s) = Resolved true
         /\ is_demo (apiKey (fst (initialize "demo" load s))) = true
         /\ isAvailable (fst (initialize "demo" load s)) = true
         /\ model (fst (initialize "demo" load s)) = model s)
  /\ (forall load key,
         model (fst (initialize "demo" load (new_service key))) = None).
Proof.
  repeat split; try reflexivity.
  intros s imageElement w Hkey. now rewrite (detectMold_demo _ _ _ Hkey).
Qed.

Lemma demo_key_takes_mock_path_witness :
  is_demo (apiKey demo_service) = true
  /\ fst (detectMold demo_service sample_frame sample_world)
     = Resolved (fst (generateMockDetections sample_frame sample_world)).
Proof.
  split; [reflexivity |].
  apply (proj1 demo_key_takes_mock_path demo_service sample_frame sample_world).
  reflexivity.
Defined.

(* ================================================================== *)
(** ** Predictions with absent properties *)






(* ================================================================== *)
(** ** Life cycle of the service *)

(** X1. Whatever the key, the outcome of loading the model and the state
    before, [initialize] stores the key and leaves the service in one of
    two states: it resolves to [true] and [isAvailable()] is true, or (only
    for a key other than 'demo' whose model failed to load) it rejects with
    'Roboflow initialization failed: ' and the message of the failure,
    [isAvailable()] is false and both [rf] and [model] are null. It never
    resolves to [false]. *)
Theorem initialize_settles_availability
    (key : string) (load : LoadOutcome) (s : Service) :
  apiKey (fst (initialize key load s)) = Some key
  /\ ((snd (initialize key load s) = Resolved true
       /\ isAvailable (fst (initialize key load s)) = true)
      \/ (exists e,
             load = LoadThrows e
             /\ key <> "demo"%string
             /\ snd (initialize key load s)
                = Rejected ("Roboflow initialization failed: " ++ message_of e)
             /\ isAvailable (fst (initialize key load s)) = false
             /\ rf (fst (initialize key load s)) = None
             /\ model (fst (initialize key load s)) = None)).
Proof.
  unfold initialize, isAvailable, has_model, is_demo.
  destruct (String.eqb key "demo") eqn:Hkey.
  - cbn. rewrite Hkey. split; [reflexivity |]. left. split; reflexivity.
  - destruct load as [detect_fn | e]; cbn.
    + split; [reflexivity |]. left. rewrite Hkey. split; reflexivity.
    + split; [reflexivity |]. right. exists e.
      apply String.eqb_neq in Hkey. repeat split; auto.
Qed.



(** X3. [detectMold] rejects with 'Roboflow model not initialized' exactly
    when the key is not 'demo' and [isAvailable()] is false. *)
Theorem detectMold_not_initialized_iff
    (s : Service) (imageElement : ImageElement) (w : World) :
  fst (detectMold s imageElement w) = Rejected "Roboflow model not initialized"
  <-> is_demo (apiKey s) = false /\ isAvailable s = false.
Proof.
  unfold detectMold, isAvailable, has_model.
  destruct (is_demo (apiKey s)) eqn:Hkey.
  - unfold bind, ret. destruct (generateMockDetections imageElement w).
    cbn. split; [discriminate | intros [H _]; discriminate H].
  - rewrite orb_false_l.
    destruct (isInitialized s), (model s) as [m |]; cbn;
      try (split; [auto | reflexivity]).
    split; [| intros [_ H]; discriminate H].
    destruct (detect m imageElement) as [[| | ps] | e]; cbn;
      try discriminate.
    destruct (List.length ps =? 0)%nat; cbn; [discriminate |].
    unfold bind. destruct (map_indexed _ _ _ _). discriminate.
Qed.

(* ================================================================== *)
(** ** Identifiers *)

Lemma string_of_uint_digits (d : Decimal.uint) :
  contains_char "_" (NilEmpty.string_of_uint d) = false.
Proof. induction d; cbn; auto. Qed.

Lemma Number_toString_no_underscore (n : Z) :
  contains_char "_" (Number_toString n) = false.
Proof.
  unfold Number_toString.
  destruct (Z.to_int n) as [d | d]; cbn;
    (destruct d; [reflexivity | apply (string_of_uint_digits (_ _)) ..]).
Qed.

Lemma to_uint_not_Nil (p : positive) : Pos.to_uint p <> Decimal.Nil.
Proof.
  intros H. pose proof (DecimalPos.Unsigned.of_to p) as E.
  rewrite H in E. discriminate E.
Qed.

(** Two integers with the same digits are equal. *)
Lemma Number_toString_inj (a b : Z) :
  Number_toString a = Number_toString b -> a = b.
Proof.
  unfold Number_toString. intros H.
  apply DecimalZ.to_int_inj.
  assert (Hparse : forall z, NilZero.int_of_string (NilZero.string_of_int (Z.to_int z))
                             = Some (Z.to_int z)).
  { intros z. apply NilZero.isi; destruct z; cbn; try discriminate;
      intros [= E]; exact (to_uint_not_Nil _ E). }
  apply (f_equal NilZero.int_of_string) in H. rewrite !Hparse in H.
  now injection H.
Qed.

Lemma append_inj_l (p a b : string) : (p ++ a = p ++ b)%string -> a = b.
Proof. induction p as [| c p IH]; cbn; [auto | intros [= H]; auto]. Qed.

(** A text without '_' ends at the first '_'. *)
Lemma split_at_underscore (s1 s2 r1 r2 : string) :
  contains_char "_" s1 = false ->
  contains_char "_" s2 = false ->
  (s1 ++ String "_" r1 = s2 ++ String "_" r2)%string ->
  s1 = s2 /\ r1 = r2.
Proof.
  revert s2. induction s1 as [| a s1 IH]; intros [| b s2] H1 H2 E; cbn in *.
  - now injection E.
  - injection E as <- _. apply orb_false_iff in H2. destruct H2 as [H2 _].
    discriminate H2.
  - injection E as -> _. apply orb_false_iff in H1. destruct H1 as [H1 _].
    discriminate H1.
  - injection E as -> E. apply orb_false_iff in H1, H2.
    destruct (IH s2) as [-> ->]; tauto.
Qed.

(** The index can be read back from an id. *)
Lemma indexed_id_index (prefix : string) (t1 t2 j1 j2 : Z) :
  (prefix ++ Number_toString t1 ++ "_" ++ Number_toString j1
   = prefix ++ Number_toString t2 ++ "_" ++ Number_toString j2)%string ->
  t1 = t2 /\ j1 = j2.
Proof.
  intros E. apply append_inj_l in E.
  apply split_at_underscore in E; try apply Number_toString_no_underscore.
  destruct E as [E1 E2]. split; now apply Number_toString_inj.
Qed.

Lemma indexed_id_weaken prefix i i' d :
  (i <= i')%Z -> indexed_id prefix i' d -> indexed_id prefix i d.
Proof. intros Hi (t & j & Hj & E). exists t, j. split; [lia | exact E]. Qed.

(** A detection whose index is [i] is not among detections whose indices
    are greater. *)
Lemma indexed_id_fresh prefix t i d ds :
  id d = (prefix ++ Number_toString t ++ "_" ++ Number_toString i)%string ->
  Forall (indexed_id prefix (i + 1)) ds ->
  ~ In (id d) (map id ds).
Proof.
  intros Hd Hds Hin. apply in_map_iff in Hin. destruct Hin as (d' & E & Hin).
  rewrite Forall_forall in Hds. destruct (Hds d' Hin) as (t' & j & Hj & E').
  rewrite Hd, E' in E. apply indexed_id_index in E. lia.
Qed.

Lemma map_indexed_ids imageElement ps :
  forall i w,
    let ds := fst (map_indexed (detectionOfPrediction imageElement) ps i w) in
    NoDup (map id ds) /\ Forall (indexed_id "mold_" i) ds.
Proof.
  induction ps as [| p ps IH]; intros i w; cbn [map_indexed].
  - cbn. split; constructor.
  - unfold bind.
    assert (Hd : exists t, id (fst (detectionOfPrediction imageElement p i w))
                           = ("mold_" ++ Number_toString t ++ "_" ++ Number_toString i)%string).
    { eexists. reflexivity. }
    destruct (detectionOfPrediction imageElement p i w) as [d w1].
    specialize (IH (i + 1)%Z w1).
    destruct (map_indexed _ ps (i + 1)%Z w1) as [ds w2].
    cbn [fst] in *. destruct IH as [Hnodup Hall]. destruct Hd as [t Hd]. split.
    + cbn [map]. constructor; [| exact Hnodup].
      now apply (indexed_id_fresh "mold_" t i).
    + constructor.
      * exists t, i. split; [lia | exact Hd].
      * eapply Forall_impl; [| exact Hall].
        intros d'. apply indexed_id_weaken. lia.
Qed.

Lemma mock_loop_ids n :
  forall i w,
    let ds := fst (mock_loop n i w) in
    NoDup (map id ds) /\ Forall (indexed_id "demo_mold_" i) ds.
Proof.
  induction n as [| n IH]; intros i w; cbn [mock_loop].
  - cbn. split; constructor.
  - unfold bind.
    assert (Hd : exists t, id (fst (mockDetection i w))
                           = ("demo_mold_" ++ Number_toString t ++ "_" ++ Number_toString i)%string).
    { eexists. reflexivity. }
    destruct (mockDetection i w) as [d w1].
    specialize (IH (i + 1)%Z w1).
    destruct (mock_loop n (i + 1)%Z w1) as [ds w2].
    cbn [fst] in *. destruct IH as [Hnodup Hall]. destruct Hd as [t Hd]. split.
    + cbn [map]. constructor; [| exact Hnodup].
      now apply (indexed_id_fresh "demo_mold_" t i).
    + constructor.
      * exists t, i. split; [lia | exact Hd].
      * eapply Forall_impl; [| exact Hall].
        intros d'. apply indexed_id_weaken. lia.
Qed.

(** X4. The detections of one call to [detectMold] have pairwise distinct
    ids, in demo mode and outside it, whatever the clock answers (even the
    same time for every detection): the index is part of the id. *)
Theorem detectMold_ids_distinct
    (s : Service) (imageElement : ImageElement) (w : World) :
  match fst (detectMold s imageElement w) with
  | Resolved ds => NoDup (map id ds)
  | Rejected _ => True
  end.
Proof.
  destruct (is_demo (apiKey s)) eqn:Hkey.
  - rewrite (detectMold_demo _ _ _ Hkey). cbn [fst].
    unfold generateMockDetections, bind, Math_random. apply mock_loop_ids.
  - unfold detectMold. rewrite Hkey.
    destruct (negb (isAvailable s) || negb (has_model s)); [exact I |].
    destruct (model s) as [m |]; [| exact I].
    destruct (detect m imageElement) as [[| | ps] | e]; cbn; try constructor.
    destruct (List.length ps =? 0)%nat; cbn; [constructor |].
    unfold bind.
    pose proof (map_indexed_ids imageElement ps 0%Z w) as [H _].
    destruct (map_indexed _ _ _ _). exact H.
Qed.

(* ================================================================== *)
(** ** What a call reads from the world *)

Lemma map_indexed_world imageElement ps :
  forall i w,
    snd (map_indexed (detectionOfPrediction imageElement) ps i w)
    = mkWorld (random_tape w) (random_pos w) (clock_tape w)
              (List.length ps + clock_pos w).
Proof.
  induction ps as [| p ps IH]; intros i w; cbn [map_indexed].
  - now destruct w.
  - unfold bind.
    assert (Hw : snd (detectionOfPrediction imageElement p i w)
                 = mkWorld (random_tape w) (random_pos w) (clock_tape w)
                           (S (clock_pos w))) by reflexivity.
    destruct (detectionOfPrediction imageElement p i w) as [d w1].
    specialize (IH (i + 1)%Z w1).
    destruct (map_indexed _ ps (i + 1)%Z w1) as [ds w2].
    cbn [fst snd] in *. subst w1. rewrite IH. cbn.
    f_equal. lia.
Qed.

Lemma map_indexed_length {A B} (callback : A -> Z -> M B) (l : list A) :
  forall i w, List.length (fst (map_indexed callback l i w)) = List.length l.
Proof.
  induction l as [| a l IH]; intros i w; cbn [map_indexed]; [reflexivity |].
  unfold bind. destruct (callback a i w) as [b w1].
  specialize (IH (i + 1)%Z w1). destruct (map_indexed callback l (i + 1)%Z w1).
  cbn in *. now rewrite IH.
Qed.

(** The detections made from predictions depend on the world through the
    clock only. *)
Lemma map_indexed_clock_only imageElement ps :
  forall i w w',
    clock_tape w = clock_tape w' -> clock_pos w = clock_pos w' ->
    fst (map_indexed (detectionOfPrediction imageElement) ps i w)
    = fst (map_indexed (detectionOfPrediction imageElement) ps i w').
Proof.
  induction ps as [| p ps IH]; intros i w w' Htape Hpos; cbn [map_indexed].
  - reflexivity.
  - unfold bind.
    assert (Hd : fst (detectionOfPrediction imageElement p i w)
                 = fst (detectionOfPrediction imageElement p i w')).
    { cbn. now rewrite Htape, Hpos. }
    assert (Ht : clock_tape (snd (detectionOfPrediction imageElement p i w))
                 = clock_tape (snd (detectionOfPrediction imageElement p i w')))
      by exact Htape.
    assert (Hp : clock_pos (snd (detectionOfPrediction imageElement p i w))
                 = clock_pos (snd (detectionOfPrediction imageElement p i w')))
      by (cbn; now rewrite Hpos).
    destruct (detectionOfPrediction imageElement p i w) as [d w1].
    destruct (detectionOfPrediction imageElement p i w') as [d' w1'].
    cbn [fst snd] in *. specialize (IH (i + 1)%Z w1 w1' Ht Hp).
    destruct (map_indexed _ ps (i + 1)%Z w1) as [ds w2].
    destruct (map_indexed _ ps (i + 1)%Z w1') as [ds' w2'].
    cbn in *. now subst.
Qed.

(** X5. Outside demo mode [detectMold] never calls [Math.random()]: its
    outcome is the same in two worlds that agree on the clock, the random
    tape is left where it was, and when the call resolves the clock has
    been read once per detection. *)
Theorem detectMold_model_path_reads_clock_only
    (s : Service) (imageElement : ImageElement) (w : World) :
  is_demo (apiKey s) = false ->
  (forall w', clock_tape w = clock_tape w' -> clock_pos w = clock_pos w' ->
              fst (detectMold s imageElement w) = fst (detectMold s imageElement w'))
  /\ random_pos (snd (detectMold s imageElement w)) = random_pos w
  /\ match fst (detectMold s imageElement w) with
     | Resolved ds =>
         clock_pos (snd (detectMold s imageElement w))
         = (List.length ds + clock_pos w)%nat
     | Rejected _ => True
     end.
Proof.
  intros Hkey. unfold detectMold. rewrite Hkey.
  destruct (negb (isAvailable s) || negb (has_model s)); [now cbn |].
  destruct (model s) as [m |]; [| now cbn].
  destruct (detect m imageElement) as [[| | ps] | e]; try (now cbn).
  destruct ps as [| p ps]; [now cbn |]. cbn [List.length Nat.eqb].
  unfold bind, ret.
  pose proof (map_indexed_world imageElement (p :: ps) 0%Z w) as Hw.
  pose proof (map_indexed_length (detectionOfPrediction imageElement) (p :: ps) 0%Z w)
    as Hlen.
  split; [| split].
  - intros w' Htape Hpos.
    pose proof (map_indexed_clock_only imageElement (p :: ps) 0%Z w w' Htape Hpos) as E.
    destruct (map_indexed _ (p :: ps) 0%Z w), (map_indexed _ (p :: ps) 0%Z w').
    cbn in *. now subst.
  - destruct (map_indexed _ (p :: ps) 0%Z w) as [ds w1]. cbn in *. now subst w1.
  - destruct (map_indexed _ (p :: ps) 0%Z w) as [ds w1]. cbn in *. subst w1.
    cbn. now rewrite Hlen.
Qed.

Lemma detectMold_model_path_reads_clock_only_witness :
  is_demo (apiKey (service_answering
                     (DetectReturns (PArray [weak_prediction; edge_prediction]))))
  = false
  /\ random_pos (snd (detectMold
                        (service_answering
                           (DetectReturns (PArray [weak_prediction; edge_prediction])))
                        sample_frame sample_world))
     = random_pos sample_world.
Proof.
  split; [reflexivity |].
  apply (proj1 (proj2 (detectMold_model_path_reads_clock_only
                         (service_answering
                            (DetectReturns (PArray [weak_prediction; edge_prediction])))
                         sample_frame sample_world eq_refl))).
Defined.

Lemma mock_loop_world n :
  forall i w,
    snd (mock_loop n i w)
    = mkWorld (random_tape w) (6 * n + random_pos w) (clock_tape w)
              (n + clock_pos w).
Proof.
  induction n as [| n IH]; intros i w; cbn [mock_loop].
  - now destruct w.
  - unfold bind.
    assert (Hw : snd (mockDetection i w)
                 = mkWorld (random_tape w) (6 + random_pos w) (clock_tape w)
                           (S (clock_pos w))) by reflexivity.
    destruct (mockDetection i w) as [d w1]. specialize (IH (i + 1)%Z w1).
    destruct (mock_loop n (i + 1)%Z w1) as [ds w2].
    cbn [fst snd] in *. subst w1. rewrite IH. unfold ret.
    cbn [snd random_tape random_pos clock_tape clock_pos].
    f_equal; lia.
Qed.

(** X6. What a call in demo mode reads: [generateMockDetections] draws
    once for the number of detections and six times for each detection
    that it returns, and reads the clock once for each; [detectMold] with
    the key 'demo' reads exactly the same and resolves. *)
Theorem generateMockDetections_reads
    (s : Service) (imageElement : ImageElement) (w : World) :
  let n := List.length (fst (generateMockDetections imageElement w)) in
  (random_pos (snd (generateMockDetections imageElement w))
   = (1 + 6 * n + random_pos w)%nat
   /\ clock_pos (snd (generateMockDetections imageElement w))
      = (n + clock_pos w)%nat)
  /\ (is_demo (apiKey s) = true ->
      detectMold s imageElement w
      = (Resolved (fst (generateMockDetections imageElement w)),
         mkWorld (random_tape w) (1 + 6 * n + random_pos w) (clock_tape w)
                 (n + clock_pos w))).
Proof.
  cbv zeta. rewrite generateMockDetections_length.
  set (n := Z.to_nat (Math_floor (random_tape w (random_pos w) * 3))).
  assert (Hw : snd (generateMockDetections imageElement w)
               = mkWorld (random_tape w) (1 + 6 * n + random_pos w) (clock_tape w)
                         (n + clock_pos w)).
  { unfold generateMockDetections, bind, Math_random. rewrite mock_loop_world.
    cbn [random_tape random_pos clock_tape clock_pos]. f_equal. lia. }
  split.
  - rewrite Hw. split; reflexivity.
  - intros Hkey. rewrite (detectMold_demo _ _ _ Hkey). now rewrite Hw.
Qed.

Lemma generateMockDetections_reads_witness :
  is_demo (apiKey demo_service) = true
  /\ random_pos (snd (detectMold demo_service sample_frame sample_world)) = 13%nat
  /\ clock_pos (snd (detectMold demo_service sample_frame sample_world)) = 2%nat.
Proof.
  split; [reflexivity |].
  rewrite (proj2 (generateMockDetections_reads demo_service sample_frame sample_world)
                 eq_refl).
  split; reflexivity.
Defined.

(* ================================================================== *)
(** ** Severity and recommendations of the detections *)

(** X7. No mock detection is critical (its area never exceeds 0.06), and a
    mock detection is low only when its confidence is exactly 0.6. *)
Theorem generateMockDetections_never_critical
    (imageElement : ImageElement) (w : World) :
  unit_draws w ->
  Forall (fun d => severity d <> Critical
                   /\ (severity d = Low -> confidence d == 0.6))
         (fst (generateMockDetections imageElement w)).
Proof.
  intros Hdraws. apply generateMockDetections_Forall. intros i w0 Htape.
  pose proof (unit_draws_tape w w0 Htape Hdraws) as H. clear Htape Hdraws.
  destruct w0 as [tape pos clock tick]. run_mock.
  destruct (H pos) as [Hc0 Hc1], (H (S pos)) as [Ha0 Ha1].
  cbn [random_tape] in Hc0, Hc1, Ha0, Ha1.
  severity_cases (0.6 + tape pos * 0.3) (0.01 + tape (S pos) * 0.05);
    (split; [try discriminate; exfalso; lra | intros Hs; try discriminate Hs; lra]).
Qed.

Lemma generateMockDetections_never_critical_witness :
  unit_draws sample_world
  /\ Forall (fun d => severity d <> Critical
                      /\ (severity d = Low -> confidence d == 0.6))
            (fst (generateMockDetections sample_frame sample_world)).
Proof.
  assert (Hdraws : unit_draws sample_world).
  { intros n. cbn. split; [discriminate | reflexivity]. }
  split; [exact Hdraws |].
  apply (generateMockDetections_never_critical sample_frame sample_world Hdraws).
Defined.

Lemma getMoldRecommendations_shape (s : Severity) :
  firstn 3 (getMoldRecommendations s) = base_recommendations
  /\ List.length (getMoldRecommendations s) = 7%nat.
Proof. destruct s; split; reflexivity. Qed.

(** X8. Every detection that [detectMold] resolves to, mock or not,
    carries the recommendations of its own severity: the three general
    recommendations first, then the four of the tier, seven in all. *)
Theorem detectMold_recommendations_follow_severity
    (s : Service) (imageElement : ImageElement) (w : World) :
  match fst (detectMold s imageElement w) with
  | Resolved ds =>
      Forall (fun d => recommendations d = getMoldRecommendations (severity d)
                       /\ firstn 3 (recommendations d) = base_recommendations
                       /\ List.length (recommendations d) = 7%nat) ds
  | Rejected _ => True
  end.
Proof.
  assert (Hshape : forall d, recommendations d = getMoldRecommendations (severity d) ->
                             recommendations d = getMoldRecommendations (severity d)
                             /\ firstn 3 (recommendations d) = base_recommendations
                             /\ List.length (recommendations d) = 7%nat).
  { intros d E. split; [exact E |]. rewrite E. apply getMoldRecommendations_shape. }
  destruct (is_demo (apiKey s)) eqn:Hkey.
  - rewrite (detectMold_demo _ _ _ Hkey). cbn [fst].
    apply generateMockDetections_Forall. intros i w0 _. apply Hshape. reflexivity.
  - pose proof (detectMold_resolved_shape s imageElement w Hkey) as H.
    destruct (fst (detectMold s imageElement w)) as [ds | msg]; [| exact I].
    eapply Forall_impl; [| exact H].
    intros d (p & i & w0 & ->). apply Hshape. reflexivity.
Qed.

(** X9. The recommendations tell the severity: two tiers never share
    their list. *)
Theorem getMoldRecommendations_inj (a b : Severity) :
  getMoldRecommendations a = getMoldRecommendations b -> a = b.
Proof.
  destruct a, b; intros H; try reflexivity; discriminate H.
Qed.

Lemma getMoldRecommendations_inj_witness :
  getMoldRecommendations (determineSeverity 0.75 0.02) = getMoldRecommendations High
  /\ determineSeverity 0.75 0.02 = High.
Proof.
  split; [reflexivity |].
  apply (getMoldRecommendations_inj (determineSeverity 0.75 0.02) High).
  reflexivity.
Defined.

(* ================================================================== *)
(** ** Boxes that lie inside the frame *)







(* ================================================================== *)
(** ** A service that was only constructed *)

(** X12. A service that was constructed and not initialised is never
    available, whatever the key; with a key other than 'demo' (no key and
    the empty key included) [detectMold] rejects with 'Roboflow model not
    initialized' and leaves the world as it was. *)
Theorem new_service_needs_initialize
    (key : option string) (imageElement : ImageElement) (w : World) :
  isAvailable (new_service key) = false
  /\ (is_demo key = false ->
      detectMold (new_service key) imageElement w
      = (Rejected "Roboflow model not initialized", w)).
Proof.
  split; [reflexivity |].
  intros Hkey. unfold detectMold.
  assert (E : is_demo (apiKey (new_service key)) = false).
  { destruct key as [[| c k] |]; [reflexivity | exact Hkey | reflexivity]. }
  now rewrite E.
Qed.

Lemma new_service_needs_initialize_witness :
  is_demo (Some ""%string) = false
  /\ detectMold (new_service (Some ""%string)) sample_frame sample_world
     = (Rejected "Roboflow model not initialized", sample_world).
Proof.
  split; [reflexivity |].
  apply (proj2 (new_service_needs_initialize (Some ""%string) sample_frame sample_world)).
  reflexivity.
Defined.

(* ================================================================== *)
(** ** The generic description *)

Lemma Math_round_near (a : Number) :
  inject_Z (Math_round a) - 1 <= a /\ a <= inject_Z (Math_round a) + 1.
Proof.
  unfold Math_round.
  pose proof (Qfloor_le (a + (1 # 2))) as Hle.
  pose proof (Qlt_floor (a + (1 # 2))) as Hlt.
  rewrite inject_Z_plus in Hlt. change (inject_Z 1) with 1 in Hlt.
  split; lra.
Qed.

(** X11. A class whose lower-cased name is none of 'mold', 'mouldy',
    'fungal', 'constructor' and '__proto__' is described by the generic
    text 'Mold-like substance detected with N% confidence', where N is a
    whole number within 1 of a hundred times the confidence. *)
Theorem generateDescription_generic_template
    (className : string) (confidence : Number) :
  toLowerCase className <> "mold"%string ->
  toLowerCase className <> "mouldy"%string ->
  toLowerCase className <> "fungal"%string ->
  ordinary_class className ->
  exists N : Z,
    generateDescription className confidence
    = VString ("Mold-like substance detected with "
               ++ Number_toString N ++ "% confidence")
    /\ inject_Z N - 1 <= confidence * 100
    /\ confidence * 100 <= inject_Z N + 1.
Proof.
  intros H1 H2 H3 [Hc Hp]. exists (Math_round (confidence * 100)). split.
  - now apply generateDescription_fallback.
  - apply Math_round_near.
Qed.

Lemma generateDescription_generic_template_witness :
  toLowerCase "Crack" <> "mold"%string
  /\ ordinary_class "Crack"
  /\ exists N : Z,
      generateDescription "Crack" 0.874
      = VString ("Mold-like substance detected with "
                 ++ Number_toString N ++ "% confidence")
      /\ inject_Z N - 1 <= 0.874 * 100
      /\ 0.874 * 100 <= inject_Z N + 1.
Proof.
  split; [discriminate |].
  assert (Hclass : ordinary_class "Crack") by (split; discriminate).
  split; [exact Hclass |].
  apply (generateDescription_generic_template "Crack" 0.874);
    try discriminate; exact Hclass.
Defined.

(* ================================================================== *)
(** ** The form that asks for the API key *)

Import RoboflowSetup.

Lemma blank_app (a b : CodeUnits) : blank (a ++ b) = blank a && blank b.
Proof. apply forallb_app. Qed.

Lemma blank_rev (s : CodeUnits) : blank (rev s) = blank s.
Proof.
  induction s as [| c s IH]; [reflexivity |].
  cbn [rev]. rewrite blank_app, IH. cbn. now rewrite andb_true_r, andb_comm.
Qed.

Lemma trimStart_split (s : CodeUnits) :
  exists pre, s = pre ++ trimStart s /\ blank pre = true.
Proof.
  induction s as [| c s (pre & E & Hpre)]; [now exists [] |].
  cbn [trimStart]. destruct (is_white_space c) eqn:Hc.
  - exists (c :: pre). split; [cbn; now rewrite <- E |].
    unfold blank in *. cbn. now rewrite Hc.
  - now exists [].
Qed.

Lemma trimStart_head (s : CodeUnits) :
  match trimStart s with
  | [] => blank s = true
  | c :: _ => is_white_space c = false /\ blank s = false
  end.
Proof.
  induction s as [| c s IH]; [reflexivity |].
  cbn [trimStart]. unfold blank in *. cbn [forallb].
  destruct (is_white_space c) eqn:Hc; [exact IH | now split].
Qed.

Lemma trimStart_fixed (c : N) (s : CodeUnits) :
  is_white_space c = false -> trimStart (c :: s) = c :: s.
Proof. intros Hc. cbn. now rewrite Hc. Qed.

Lemma trimStart_snoc (s : CodeUnits) (c : N) :
  is_white_space c = false -> trimStart (s ++ [c]) = trimStart s ++ [c].
Proof.
  intros Hc. induction s as [| a s IH]; cbn.
  - now rewrite Hc.
  - now destruct (is_white_space a).
Qed.

Lemma trimEnd_cons (c : N) (s : CodeUnits) :
  is_white_space c = false -> trimEnd (c :: s) = c :: trimEnd s.
Proof.
  intros Hc. unfold trimEnd. cbn [rev].
  now rewrite trimStart_snoc, rev_app_distr.
Qed.

Lemma trimEnd_split (s : CodeUnits) :
  exists post, s = trimEnd s ++ post /\ blank post = true.
Proof.
  destruct (trimStart_split (rev s)) as (pre & E & Hpre).
  exists (rev pre). split; [| now rewrite blank_rev].
  unfold trimEnd. rewrite <- rev_app_distr, <- E. now rewrite rev_involutive.
Qed.

Lemma trimEnd_last (s : CodeUnits) :
  trimEnd s = [] \/ exists l c, trimEnd s = l ++ [c] /\ is_white_space c = false.
Proof.
  unfold trimEnd. pose proof (trimStart_head (rev s)) as H.
  destruct (trimStart (rev s)) as [| c t]; [now left |].
  right. exists (rev t), c. now destruct H.
Qed.

Lemma trimEnd_fixed (l : CodeUnits) (c : N) :
  is_white_space c = false -> trimEnd (l ++ [c]) = l ++ [c].
Proof.
  intros Hc. unfold trimEnd. rewrite rev_app_distr. cbn [rev app].
  rewrite trimStart_fixed by exact Hc.
  cbn [rev]. now rewrite rev_involutive.
Qed.

(** X13. The form submits nothing exactly when the field is blank (empty
    or made of white space only). *)
Theorem handleSubmit_none_iff_blank (apiKey : CodeUnits) :
  handleSubmit apiKey = None <-> blank apiKey = true.
Proof.
  unfold handleSubmit, trim. pose proof (trimStart_head apiKey) as H.
  destruct (trimStart apiKey) as [| c r].
  - cbn. tauto.
  - destruct H as [Hc Hb]. rewrite trimEnd_cons by exact Hc. rewrite Hb.
    split; discriminate.
Qed.

(** X14. What the form submits is the text of the field without the white
    space around it: the field is white space, the submitted key, white
    space; the key starts and ends with a code unit that is not white
    space; and submitting the key itself submits it unchanged. *)
Theorem handleSubmit_trimmed (apiKey key : CodeUnits) :
  handleSubmit apiKey = Some key ->
  (exists pre post,
      apiKey = pre ++ key ++ post /\ blank pre = true /\ blank post = true)
  /\ (exists c rest, key = c :: rest /\ is_white_space c = false)
  /\ (exists front c, key = front ++ [c] /\ is_white_space c = false)
  /\ handleSubmit key = Some key.
Proof.
  unfold handleSubmit at 1. intros H.
  assert (Hkey : trim apiKey = key /\ key <> []).
  { destruct (trim apiKey) as [| c r]; [discriminate H |].
    injection H as <-. split; [reflexivity | discriminate]. }
  clear H. destruct Hkey as [<- Hne]. unfold trim in *.
  destruct (trimStart_split apiKey) as (pre & Epre & Hpre).
  destruct (trimEnd_split (trimStart apiKey)) as (post & Epost & Hpost).
  pose proof (trimStart_head apiKey) as Hhead.
  destruct (trimEnd_last (trimStart apiKey)) as [E | (front & c & Elast & Hc)];
    [contradiction |].
  assert (Hfirst : exists a rest, trimEnd (trimStart apiKey) = a :: rest
                                  /\ is_white_space a = false).
  { destruct (trimStart apiKey) as [| a r]; [now cbn in Hne |].
    destruct Hhead as [Ha _]. rewrite trimEnd_cons by exact Ha. eauto. }
  split; [| split; [| split]].
  - exists pre, post. split; [| now split]. now rewrite <- Epost.
  - exact Hfirst.
  - eauto.
  - destruct Hfirst as (a & rest & Efirst & Ha).
    unfold handleSubmit, trim.
    assert (Efix : trimEnd (trimStart (trimEnd (trimStart apiKey)))
                   = trimEnd (trimStart apiKey)).
    { rewrite Efirst, trimStart_fixed by exact Ha. rewrite <- Efirst.
      rewrite Elast. now apply trimEnd_fixed. }
    rewrite Efix. now rewrite Efirst.
Qed.

Lemma handleSubmit_trimmed_witness :
  handleSubmit [32; 9; 100; 101; 109; 111; 160; 10]%N = Some demo_key
  /\ handleSubmit demo_key = Some demo_key.
Proof.
  split; [reflexivity |].
  apply (handleSubmit_trimmed [32; 9; 100; 101; 109; 111; 160; 10]%N demo_key).
  reflexivity.
Defined.

(* ================================================================== *)
(** ** Demo mode and the frame *)

(** X15. In demo mode the outcome of [detectMold] depends on the world
    only: neither the frame nor the other fields of the service (model,
    initialisation) have any influence on the mock detections. *)
Theorem detectMold_demo_ignores_frame
    (s s' : Service) (imageElement imageElement' : ImageElement) (w : World) :
  is_demo (apiKey s) = true ->
  is_demo (apiKey s') = true ->
  detectMold s imageElement w = detectMold s' imageElement' w.
Proof.
  intros Hs Hs'. now rewrite (detectMold_demo _ _ _ Hs), (detectMold_demo _ _ _ Hs').
Qed.

Lemma detectMold_demo_ignores_frame_witness :
  is_demo (apiKey demo_service) = true
  /\ is_demo (apiKey (fst (initialize "demo" (LoadThrows ThrownOther) timed_out_service)))
     = true
  /\ detectMold demo_service sample_frame sample_world
     = detectMold (fst (initialize "demo" (LoadThrows ThrownOther) timed_out_service))
                  (mkImage 0 0) sample_world.
Proof.
  split; [reflexivity |]. split; [reflexivity |].
  apply (detectMold_demo_ignores_frame
           demo_service
           (fst (initialize "demo" (LoadThrows ThrownOther) timed_out_service))
           sample_frame (mkImage 0 0) sample_world);
    reflexivity.
Defined.
